(** * The OpenTelemetry bridge of ddtrace: [ddtrace/_opentelemetry/trace.py]

    A shallow embedding of [TracerProvider] and [Tracer] and the properties
    of span parenting, foreign-context conversion and scoped activation.

    Python objects that the code compares by identity ([is]) or hands on by
    reference are modelled with their identity: the sentinel
    [INVALID_SPAN] and the constant [TraceFlags.SAMPLED] are constructors of
    their own, native spans live in a store and are named by their index.
    Effects (the ambient OpenTelemetry context, the native tracer's span
    store, the module logger, raised exceptions) are threaded through a
    state-and-exception monad. *)

From Stdlib Require Import ZArith Bool Lia.
From stdpp Require Import base option list strings gmap.

Local Open Scope string_scope.
Local Open Scope list_scope.
Local Open Scope Z_scope.

(** ** Python values *)

(** Exceptions that can travel through the bridge: the interpreter's
    [UnboundLocalError] for a local read before assignment, and whatever the
    caller's own code raises (class name and message). *)
Inductive PyExc : Type :=
| UnboundLocalError (name : string)
| UserError (cls msg : string).

(** [opentelemetry.trace.SpanKind] *)
Inductive OtelSpanKind : Type := INTERNAL | SERVER | CLIENT | PRODUCER | CONSUMER.

(** [opentelemetry.util.types.AttributeValue], scalar cases. *)
Inductive OtelAttributeValue : Type :=
| AttrStr (s : string)
| AttrBool (b : bool)
| AttrInt (i : Z).

(** [Mapping[str, AttributeValue]], in insertion order. *)
Definition Attributes : Type := list (string * OtelAttributeValue).

(** [opentelemetry.trace.span.TraceFlags] objects, by identity.  The source
    tests [tf is TraceFlags.SAMPLED]: [SAMPLED] is the one object bound to
    that class attribute; [FlagsObject bits] is any other flags object,
    whatever its integer value (also an object whose value is [0x01]). *)
Inductive TraceFlags : Type :=
| SAMPLED
| FlagsObject (bits : Z).

Definition flags_value (tf : TraceFlags) : Z :=
  match tf with
  | SAMPLED => 1
  | FlagsObject bits => bits
  end.

(** Modelled from the spec: the sampling flag of a span context, the
    [sampled] property of the API's [TraceFlags] (the lowest bit of the
    flags value). *)
Definition sampled (tf : TraceFlags) : bool :=
  negb (Z.land (flags_value tf) 1 =? 0).

(** [TraceState]: an ordered mapping of vendor keys to values. *)
Definition TraceState : Type := list (string * string).

(** Modelled from the spec: [TraceState.to_header], the standardized
    trace-state serialization: the members as [key=value], joined by commas,
    in the order they are held. *)
Definition to_header (ts : TraceState) : string :=
  String.concat "," (map (fun kv => fst kv +:+ "=" +:+ snd kv) ts).

(** Truth value of [ts] in [... if ts else None]: [None] is false, and a
    mapping is true exactly when it has a member. *)
Definition truthy (ts : option TraceState) : bool :=
  match ts with
  | Some (_ :: _) => true
  | _ => false
  end.

(** [SpanContext], the 6-tuple
    [(trace_id, span_id, is_remote, trace_flags, trace_state, is_valid)]. *)
Record SpanContext : Type := mkSpanContext {
  sc_trace_id : Z;
  sc_span_id : Z;
  sc_is_remote : bool;
  sc_trace_flags : TraceFlags;
  sc_trace_state : option TraceState;
  sc_is_valid : bool
}.

(** A span of the OpenTelemetry API that this bridge did not create; the
    bridge only calls [get_span_context()] on it. *)
Record OtelSpan : Type := mkOtelSpan {
  get_span_context : SpanContext
}.

(** [opentelemetry.trace.Link], accepted by the signatures. *)
Record OtelLink : Type := mkOtelLink {
  link_context : SpanContext;
  link_attributes : Attributes
}.

(** Identity of a native tracer object and of a native span object. *)
Definition DDTracer : Type := nat.
Definition DDSpanRef : Type := nat.

(** Modelled from the spec: [ddtrace.internal.constants.W3C_TRACESTATE_KEY],
    the single well-known metadata key that carries the vendor trace-state. *)
Definition W3C_TRACESTATE_KEY : string := "tracestate".

(** Modelled from the spec: [ddtrace.context.Context], the propagation
    context (trace id, span id, sampling priority, metadata).  Its
    constructor is not in this file's source; [meta=None] leaves the
    metadata without entries. *)
Record DDContext : Type := mkDDContext {
  trace_id : Z;
  span_id : Z;
  sampling_priority : option Z;
  _meta : gmap string string
}.

(** Modelled from the spec: the constructor
    [Context(trace_id, span_id, sampling_priority=, meta=)]. *)
Definition DDContext_init (trace_id span_id : Z) (sampling_priority : Z)
    (meta : option (gmap string string)) : DDContext :=
  {| trace_id := trace_id;
     span_id := span_id;
     sampling_priority := Some sampling_priority;
     _meta := default ∅ meta |}.

(** The values [child_of] can take, [Optional[Union[Context, ddtrace.Span]]]:
    [None], a live native span (by identity) or a propagation context. *)
Inductive ChildOf : Type :=
| child_None
| child_Span (ddspan : DDSpanRef)
| child_Context (ctx : DDContext).

(** Modelled from the spec: the NativeSpan, as far as the bridge observes
    it: who created it, its name, the parent it was started with, the
    exception recorded on it, its error status and whether it is finished. *)
Record DDSpan : Type := mkDDSpan {
  dd_tracer : DDTracer;
  dd_name : string;
  dd_parent : ChildOf;
  dd_exception : option PyExc;
  dd_error : bool;
  dd_finished : bool
}.

(** Modelled from the spec: [ddtrace._opentelemetry.span.Span], the wrapper:
    one exclusive reference to a native span plus the bookkeeping captured
    at construction. *)
Record Span : Type := mkSpan {
  _ddspan : DDSpanRef;
  span_kind : OtelSpanKind;
  span_attributes : option Attributes;
  span_start_time : option Z;
  _record_exception : bool;
  _set_status_on_exception : bool
}.

(** The objects a context can hold under the span key, classified the way
    the source's [if]/[elif] chain tests an object, in that order: the
    sentinel (by identity), an instance of the bridge's [Span], an instance
    of the API's [Span] that is not the bridge's, and any other object
    (kept with its printed representation). *)
Inductive PyObject : Type :=
| INVALID_SPAN
| BridgeSpan (s : Span)
| ForeignSpan (s : OtelSpan)
| OtherObject (repr : string).

(** [opentelemetry.context.Context], reduced to the value held under the
    span key: any object, the sentinel standing for no value at all. *)
Record OtelContext : Type := mkOtelContext {
  ctx_span : PyObject
}.

(** A record handed to the module logger. *)
Inductive LogLevel : Type := ERROR | WARNING | INFO | DEBUG.

Record LogRecord : Type := mkLogRecord {
  log_level : LogLevel;
  log_msg : string;
  log_args : list PyObject
}.

(** What a caller that probes the bridge writes down: on entering a scope,
    the object that was active before the span was started and the parent
    the native span was started with; on leaving a scope, the object that
    was active before and the one that is active after. *)
Inductive Observation : Type :=
| Started (active_before : PyObject) (recorded_parent : option ChildOf)
| Exited (active_before active_after : PyObject).

(** ** The world the bridge runs in *)

Record World : Type := mkWorld {
  w_context : OtelContext;        (* the current OpenTelemetry context *)
  w_spans : list DDSpan;          (* native spans, by creation index *)
  w_dd_active : option DDSpanRef; (* the native tracer's own active span *)
  w_global_tracer : DDTracer;     (* [ddtrace.tracer] *)
  w_log : list LogRecord;         (* records emitted through [log] *)
  w_observed : list Observation   (* the probing caller's notebook *)
}.

Definition set_context (c : OtelContext) (w : World) : World :=
  {| w_context := c; w_spans := w_spans w; w_dd_active := w_dd_active w;
     w_global_tracer := w_global_tracer w; w_log := w_log w;
     w_observed := w_observed w |}.

Definition set_spans (l : list DDSpan) (w : World) : World :=
  {| w_context := w_context w; w_spans := l; w_dd_active := w_dd_active w;
     w_global_tracer := w_global_tracer w; w_log := w_log w;
     w_observed := w_observed w |}.

Definition set_dd_active (a : option DDSpanRef) (w : World) : World :=
  {| w_context := w_context w; w_spans := w_spans w; w_dd_active := a;
     w_global_tracer := w_global_tracer w; w_log := w_log w;
     w_observed := w_observed w |}.

Definition set_log (l : list LogRecord) (w : World) : World :=
  {| w_context := w_context w; w_spans := w_spans w; w_dd_active := w_dd_active w;
     w_global_tracer := w_global_tracer w; w_log := l;
     w_observed := w_observed w |}.

Definition set_observed (l : list Observation) (w : World) : World :=
  {| w_context := w_context w; w_spans := w_spans w; w_dd_active := w_dd_active w;
     w_global_tracer := w_global_tracer w; w_log := w_log w;
     w_observed := l |}.

(** ** State and exceptions *)

Inductive Outcome (A : Type) : Type :=
| Returns (a : A)
| Raises (e : PyExc).
Arguments Returns {A} a.
Arguments Raises {A} e.

Definition M (A : Type) : Type := World -> Outcome A * World.

Definition ret {A} (a : A) : M A := fun w => (Returns a, w).

Definition raise {A} (e : PyExc) : M A := fun w => (Raises e, w).

Definition bind {A B} (c : M A) (k : A -> M B) : M B :=
  fun w =>
    match c w with
    | (Returns a, w') => k a w'
    | (Raises e, w') => (Raises e, w')
    end.

Notation "'let*' x := c 'in' k" := (bind c (fun x => k))
  (at level 10, x name, c at level 100, k at level 200).

(** [if b: c] *)
Definition when (b : bool) (c : M unit) : M unit :=
  if b then c else ret tt.

(** [try: c  finally: f] *)
Definition try_finally {A} (c : M A) (f : M unit) : M A :=
  fun w =>
    match c w with
    | (r, w') =>
        match f w' with
        | (Returns _, w'') => (r, w'')
        | (Raises e, w'') => (Raises e, w'')
        end
    end.

(** [try: c  except: h(exc); raise] *)
Definition on_exception {A} (c : M A) (h : PyExc -> M unit) : M A :=
  fun w =>
    match c w with
    | (Returns a, w') => (Returns a, w')
    | (Raises e, w') =>
        match h e w' with
        | (Returns _, w'') => (Raises e, w'')
        | (Raises e', w'') => (Raises e', w'')
        end
    end.

(** [try: c  except BaseException as exc: h(exc)], the handler's outcome
    replacing the exception. *)
Definition try_except {A} (c : M A) (h : PyExc -> M A) : M A :=
  fun w =>
    match c w with
    | (Returns a, w') => (Returns a, w')
    | (Raises e, w') => h e w'
    end.

(** A local variable of a function body: Python reads of a local that no
    executed statement has assigned raise [UnboundLocalError]. *)
Inductive Local (A : Type) : Type :=
| Unbound
| Bound (a : A).
Arguments Unbound {A}.
Arguments Bound {A} a.

Definition load_local {A} (name : string) (v : Local A) : M A :=
  match v with
  | Bound a => ret a
  | Unbound => raise (UnboundLocalError name)
  end.

(** ** The services the bridge consumes *)

(** Modelled from the spec: what the active-span lookup makes of the value
    under the span key.  The lookup yields a span or the sentinel
    ([SpanLike | INVALID]): a value that is no span is answered by
    [INVALID_SPAN]. *)
Definition span_or_invalid (held : PyObject) : PyObject :=
  match held with
  | OtherObject _ => INVALID_SPAN
  | span => span
  end.

(** Modelled from the spec: [get_current_span(context)], the active-span
    lookup: the span held by the given context, or by the current context
    when none is given, and the sentinel when that context holds no span. *)
Definition get_current_span (context : option OtelContext) : M PyObject :=
  fun w => (Returns (span_or_invalid (ctx_span (default (w_context w) context))), w).

(** Modelled from the spec: [log.error(msg, *args)] of the module logger,
    which is not part of this file's source: one record is handed to the
    logger, and logging does not raise into its caller.  [w_log] lists the
    records handed over, before any filtering or rate limiting by the
    logger. *)
Definition log_error (msg : string) (args : list PyObject) : M unit :=
  fun w =>
    (Returns tt,
     set_log (w_log w ++ [ {| log_level := ERROR; log_msg := msg; log_args := args |} ]) w).

(** Modelled from the spec: a native span as the native tracer creates it:
    not finished, no error, nothing recorded. *)
Definition fresh_ddspan (tracer : DDTracer) (name : string) (child_of : ChildOf)
    : DDSpan :=
  {| dd_tracer := tracer; dd_name := name; dd_parent := child_of;
     dd_exception := None; dd_error := false; dd_finished := false |}.

(** Modelled from the spec: the native tracer's
    [start_span(name, child_of, activate)]: one fresh native span, with the
    given parent, made the tracer's active span only when [activate]. *)
Definition dd_start_span (tracer : DDTracer) (name : string) (child_of : ChildOf)
    (activate : bool) : M DDSpanRef :=
  fun w =>
    let ref := length (w_spans w) in
    let w' := set_spans (w_spans w ++ [fresh_ddspan tracer name child_of]) w in
    (Returns ref, if activate then set_dd_active (Some ref) w' else w').

(** Modelled from the spec: the constructor of the wrapper,
    [Span(dd_span, kind=, attributes=, start_time=, record_exception=,
    set_status_on_exception=)]. *)
Definition Span_init (dd_span : DDSpanRef) (kind : OtelSpanKind)
    (attributes : option Attributes) (start_time : option Z)
    (record_exception set_status_on_exception : bool) : Span :=
  {| _ddspan := dd_span;
     span_kind := kind;
     span_attributes := attributes;
     span_start_time := start_time;
     _record_exception := record_exception;
     _set_status_on_exception := set_status_on_exception |}.

(** ** [TracerProvider] and [Tracer] *)

Record TracerProvider : Type := mkTracerProvider {
  _ddtracer : DDTracer
}.

Record Tracer : Type := mkTracer {
  _tracer : DDTracer
}.

(** [TracerProvider.__init__]: [self._ddtracer = ddtrace.tracer]. *)
Definition TracerProvider_init : M TracerProvider :=
  fun w => (Returns {| _ddtracer := w_global_tracer w |}, w).

(** [Tracer.__init__]: [self._tracer = datadog_tracer]. *)
Definition Tracer_init (datadog_tracer : DDTracer) : Tracer :=
  {| _tracer := datadog_tracer |}.

(** [TracerProvider.get_tracer]: [return Tracer(self._ddtracer)]. *)
Definition get_tracer (self : TracerProvider) (instrumenting_module_name : string)
    (instrumenting_library_version : option string) (schema_url : option string)
    : Tracer :=
  Tracer_init (_ddtracer self).

Definition unsupported_span_message : string :=
  "Programming Error: The current active Span is not supported by ddtrace. The following span will not " +:+
  "have a parent: %s. Please open a github issue at: https://github.com/Datadog/dd-trace-py and avoid " +:+
  "setting the ddtrace OpenTelemetry TracerProvider.".

(** Lines 90 to 93 of the source, the conversion of a foreign span:
    [[
      trace_id, span_id, _, tf, ts, _ = curr_otel_span.get_span_context()
      sp = 1 if tf is TraceFlags.SAMPLED else 0
      meta = {W3C_TRACESTATE_KEY: ts.to_header()} if ts else None
      dd_active = ddtrace.context.Context(trace_id, span_id, sampling_priority=sp, meta=meta)
    ]] *)
Definition foreign_context (curr_otel_span : OtelSpan) : DDContext :=
  let '(mkSpanContext trace_id span_id _ tf ts _) := get_span_context curr_otel_span in
  let sp := match tf with SAMPLED => 1 | FlagsObject _ => 0 end in
  let meta :=
    if truthy ts
    then Some {[ W3C_TRACESTATE_KEY := to_header (default [] ts) ]}
    else None in
  DDContext_init trace_id span_id sp meta.

(** The [if]/[elif]/[else] chain of [start_span]: the binding of the local
    [dd_active] after it.  The last branch logs and assigns nothing. *)
Definition resolve_dd_active (curr_otel_span : PyObject) : M (Local ChildOf) :=
  match curr_otel_span with
  | INVALID_SPAN =>
      ret (Bound child_None)
  | BridgeSpan s =>
      ret (Bound (child_Span (_ddspan s)))
  | ForeignSpan s =>
      ret (Bound (child_Context (foreign_context s)))
  | OtherObject _ =>
      let* _ := log_error unsupported_span_message [curr_otel_span] in
      ret Unbound
  end.

(** [Tracer.start_span] *)
Definition start_span (self : Tracer) (name : string)
    (context : option OtelContext) (kind : OtelSpanKind)
    (attributes : option Attributes) (links : option (list OtelLink))
    (start_time : option Z) (record_exception set_status_on_exception : bool)
    : M Span :=
  let* curr_otel_span := get_current_span context in
  let* dd_active_local := resolve_dd_active curr_otel_span in
  let* dd_active := load_local "dd_active" dd_active_local in
  let* dd_span := dd_start_span (_tracer self) name dd_active false in
  ret (Span_init dd_span kind attributes start_time
         record_exception set_status_on_exception).

(** ** Scoped activation *)

(** In-place update of one native span of the store. *)
Definition alter_span (ref : DDSpanRef) (f : DDSpan -> DDSpan) (w : World) : World :=
  set_spans (alter f ref (w_spans w)) w.

Definition update_ddspan (ref : DDSpanRef) (f : DDSpan -> DDSpan) : M unit :=
  fun w => (Returns tt, alter_span ref f w).

Definition with_exception (exc : PyExc) (d : DDSpan) : DDSpan :=
  {| dd_tracer := dd_tracer d; dd_name := dd_name d; dd_parent := dd_parent d;
     dd_exception := Some exc; dd_error := dd_error d; dd_finished := dd_finished d |}.

Definition with_error (d : DDSpan) : DDSpan :=
  {| dd_tracer := dd_tracer d; dd_name := dd_name d; dd_parent := dd_parent d;
     dd_exception := dd_exception d; dd_error := true; dd_finished := dd_finished d |}.

Definition finished (d : DDSpan) : DDSpan :=
  {| dd_tracer := dd_tracer d; dd_name := dd_name d; dd_parent := dd_parent d;
     dd_exception := dd_exception d; dd_error := dd_error d; dd_finished := true |}.

(** Modelled from the spec: [Span.record_exception], gated by the flag
    captured at construction. *)
Definition Span_record_exception (self : Span) (exc : PyExc) : M unit :=
  when (_record_exception self) (update_ddspan (_ddspan self) (with_exception exc)).

(** Modelled from the spec: [Span.set_status] with an error status, gated
    by the flag captured at construction. *)
Definition Span_set_status_error (self : Span) : M unit :=
  when (_set_status_on_exception self) (update_ddspan (_ddspan self) with_error).

(** Modelled from the spec: finishing a native span; finishing a finished
    span changes nothing. *)
Definition finish (d : DDSpan) : DDSpan :=
  if dd_finished d then d else finished d.

(** Modelled from the spec: [Span.end], which finishes the native span. *)
Definition Span_end (self : Span) : M unit :=
  update_ddspan (_ddspan self) finish.

(** Modelled from the spec: attaching a span to the current context returns
    the token that restores the context it replaced. *)
Definition attach (span : Span) : M OtelContext :=
  fun w => (Returns (w_context w), set_context {| ctx_span := BridgeSpan span |} w).

(** Modelled from the spec: detaching with a token puts back the context
    the token remembers. *)
Definition detach (token : OtelContext) : M unit :=
  fun w => (Returns tt, set_context token w).

(** Modelled from the spec: [use_span], the activation scope of the
    propagation layer, as a bracket around the body of the [with] block:
    (a) the span is the active one for the duration of the body; (b) on an
    exception raised in the body the exception is recorded when
    [record_exception] and the status set to error when
    [set_status_on_exception]; (c) on exit the span is ended when
    [end_on_exit]; (d) the previous active span is restored, always.  The
    body's exception is raised again afterwards. *)
Definition use_span {A} (span : Span)
    (end_on_exit record_exception set_status_on_exception : bool)
    (body : Span -> M A) : M A :=
  let* token := attach span in
  try_finally
    (try_finally
       (on_exception (body span)
          (fun exc =>
             let* _ := when record_exception (Span_record_exception span exc) in
             when set_status_on_exception (Span_set_status_error span)))
       (when end_on_exit (Span_end span)))
    (detach token).

(** [Tracer.start_as_current_span], a [@contextmanager] generator: the code
    before [yield] runs on entering the [with] block, [body] is the block
    the caller runs at the [yield], with the yielded span. *)
Definition start_as_current_span {A} (self : Tracer) (name : string)
    (context : option OtelContext) (kind : OtelSpanKind)
    (attributes : option Attributes) (links : option (list OtelLink))
    (start_time : option Z) (record_exception set_status_on_exception : bool)
    (end_on_exit : bool) (body : Span -> M A) : M A :=
  let* span := start_span self name context kind attributes links start_time
                 record_exception set_status_on_exception in
  use_span span end_on_exit record_exception set_status_on_exception
    (fun span => body span).

(** ** Nested scopes, as a caller writes them *)

(** The keyword arguments of one [start_as_current_span] call that resolves
    its parent in the current context ([context] left out). *)
Record ScopeArgs : Type := mkScopeArgs {
  arg_name : string;
  arg_kind : OtelSpanKind;
  arg_attributes : option Attributes;
  arg_links : option (list OtelLink);
  arg_start_time : option Z;
  arg_record_exception : bool;
  arg_set_status_on_exception : bool;
  arg_end_on_exit : bool
}.

(** Caller code: blocks of nested [with tracer.start_as_current_span(...)]
    scopes, in sequence, that may raise and may catch. *)
Inductive Prog : Type :=
| Pass
| Seq (p q : Prog)
| RaiseExc (e : PyExc)
| TryExcept (p handler : Prog)
| WithSpan (a : ScopeArgs) (body : Prog).

Definition observe (o : Observation) : M unit :=
  fun w => (Returns tt, set_observed (w_observed w ++ [o]) w).

(** The parent a native span was started with, read from the store. *)
Definition recorded_parent (s : Span) : M (option ChildOf) :=
  fun w => (Returns (dd_parent <$> w_spans w !! _ddspan s), w).

(** Running caller code against a tracer.  Around every scope the caller
    notes the active span before the call, the new span's recorded parent on
    entry, and the active span once the scope is left, however it is left:
    [[
      before = get_current_span()
      try:
          with tracer.start_as_current_span(name, ...) as span:
              note(Started(before, parent of span))
              body
      finally:
          note(Exited(before, get_current_span()))
    ]] *)
Fixpoint run (tracer : Tracer) (p : Prog) : M unit :=
  match p with
  | Pass => ret tt
  | Seq p q => let* _ := run tracer p in run tracer q
  | RaiseExc e => raise e
  | TryExcept p handler => try_except (run tracer p) (fun _ => run tracer handler)
  | WithSpan a body =>
      let* before := get_current_span None in
      try_finally
        (start_as_current_span tracer (arg_name a) None (arg_kind a)
           (arg_attributes a) (arg_links a) (arg_start_time a)
           (arg_record_exception a) (arg_set_status_on_exception a)
           (arg_end_on_exit a)
           (fun span =>
              let* parent := recorded_parent span in
              let* _ := observe (Started before parent) in
              run tracer body))
        (let* after := get_current_span None in
         observe (Exited before after))
  end.

(** What it means for a recorded parent to be the span that was active: no
    parent when nothing was active, the wrapper's own native span when a
    span of this bridge was active, a context with the foreign span's ids
    when a foreign span was active. *)
Definition parent_is (active : PyObject) (parent : ChildOf) : Prop :=
  match active, parent with
  | INVALID_SPAN, child_None => True
  | BridgeSpan s, child_Span ref => ref = _ddspan s
  | ForeignSpan s, child_Context c =>
      trace_id c = sc_trace_id (get_span_context s) /\
      span_id c = sc_span_id (get_span_context s)
  | _, _ => False
  end.

Definition observation_ok (o : Observation) : Prop :=
  match o with
  | Started before parent =>
      match parent with
      | Some parent => parent_is before parent
      | None => False
      end
  | Exited before after => after = before
  end.

Definition is_started (o : Observation) : bool :=
  match o with
  | Started _ _ => true
  | Exited _ _ => false
  end.

(** ** Vocabulary of the statements *)

(** The native parent of the span a wrapper owns, in a world. *)
Definition native_parent (w : World) (s : Span) : option ChildOf :=
  dd_parent <$> w_spans w !! _ddspan s.

(** The object [start_span] resolves as the active span: the answer of
    the lookup. *)
Definition resolved_active (context : option OtelContext) (w : World) : PyObject :=
  span_or_invalid (ctx_span (default (w_context w) context)).

(** The wrapper [start_span] returns in a world: it owns the next native
    span of the store. *)
Definition new_wrapper (w : World) (kind : OtelSpanKind)
    (attributes : option Attributes) (start_time : option Z)
    (record_exception set_status_on_exception : bool) : Span :=
  Span_init (length (w_spans w)) kind attributes start_time
    record_exception set_status_on_exception.

(** The world after the native tracer has started one span. *)
Definition started (self : Tracer) (name : string) (parent : ChildOf) (w : World)
    : World :=
  set_spans (w_spans w ++ [fresh_ddspan (_tracer self) name parent]) w.

(** The exception an outcome carries, if any. *)
Definition raised {A} (r : Outcome A) : option PyExc :=
  match r with
  | Returns _ => None
  | Raises e => Some e
  end.

(** The world when the body of a scope is entered: the span is the active
    one of the current context. *)
Definition entered (span : Span) (w : World) : World :=
  set_context {| ctx_span := BridgeSpan span |} w.

(** What leaving a scope does to the store, given how the body ended. *)
Definition bookkeeping (span : Span)
    (end_on_exit record_exception set_status_on_exception : bool)
    (exc : option PyExc) (w : World) : World :=
  let w1 :=
    match exc with
    | Some e =>
        let wr :=
          if record_exception && _record_exception span
          then alter_span (_ddspan span) (with_exception e) w else w in
        if set_status_on_exception && _set_status_on_exception span
        then alter_span (_ddspan span) with_error wr else wr
    | None => w
    end in
  if end_on_exit then alter_span (_ddspan span) finish w1 else w1.

(** What leaving a scope does to the span's own native span. *)
Definition booked (span : Span)
    (end_on_exit record_exception set_status_on_exception : bool)
    (exc : option PyExc) (d : DDSpan) : DDSpan :=
  let d1 :=
    match exc with
    | Some e =>
        let dr :=
          if record_exception && _record_exception span
          then with_exception e d else d in
        if set_status_on_exception && _set_status_on_exception span
        then with_error dr else dr
    | None => d
    end in
  if end_on_exit then finish d1 else d1.

(** ** The active-span slot as a stack *)

(** The parent a span gets when [active] is the active span: none under
    the sentinel, the wrapper's own native span under a span of this
    bridge, the derived context under a foreign span. *)
Definition dd_parent_of (active : PyObject) : ChildOf :=
  match active with
  | INVALID_SPAN => child_None
  | BridgeSpan s => child_Span (_ddspan s)
  | ForeignSpan s => child_Context (foreign_context s)
  | OtherObject _ => child_None
  end.

(** Following the spec's words, caller code run against the active-span
    slot seen as a stack with [active] on top.  A scope starts one native
    span whose parent is the top of the stack, pushes its wrapper for the
    time of its body, and pops it on exit, normal or exceptional, so that
    what follows the scope runs under [active] again.  The result is the
    outcome, the store of native spans, and the notes a probing caller would
    take: at every entry the top of the stack and the parent recorded, at
    every exit the top of the stack before and after. *)
Fixpoint lifo (tracer : Tracer) (p : Prog) (active : PyObject)
    (spans : list DDSpan) : Outcome unit * list DDSpan * list Observation :=
  match p with
  | Pass => (Returns tt, spans, [])
  | Seq p q =>
      match lifo tracer p active spans with
      | (Returns _, spans1, notes1) =>
          match lifo tracer q active spans1 with
          | (r, spans2, notes2) => (r, spans2, notes1 ++ notes2)
          end
      | (Raises e, spans1, notes1) => (Raises e, spans1, notes1)
      end
  | RaiseExc e => (Raises e, spans, [])
  | TryExcept p handler =>
      match lifo tracer p active spans with
      | (Returns x, spans1, notes1) => (Returns x, spans1, notes1)
      | (Raises _, spans1, notes1) =>
          match lifo tracer handler active spans1 with
          | (r, spans2, notes2) => (r, spans2, notes1 ++ notes2)
          end
      end
  | WithSpan a body =>
      let parent := dd_parent_of active in
      let span := Span_init (length spans) (arg_kind a) (arg_attributes a)
                    (arg_start_time a) (arg_record_exception a)
                    (arg_set_status_on_exception a) in
      match lifo tracer body (BridgeSpan span)
              (spans ++ [fresh_ddspan (_tracer tracer) (arg_name a) parent]) with
      | (r, spans1, notes1) =>
          (r,
           alter (booked span (arg_end_on_exit a) (arg_record_exception a)
                    (arg_set_status_on_exception a) (raised r))
             (length spans) spans1,
           Started active (Some parent) :: notes1 ++ [Exited active active])
      end
  end.

(** The world a run leaves when it started in [w]: the store and the notes
    have moved on, the current context, the log and the native tracer's
    active span are those of [w]. *)
Definition noted (spans : list DDSpan) (notes : list Observation) (w : World)
    : World :=
  set_observed (w_observed w ++ notes) (set_spans spans w).

(** ** Worlds and requests used in examples *)

Definition empty_world : World :=
  {| w_context := {| ctx_span := INVALID_SPAN |};
     w_spans := [];
     w_dd_active := None;
     w_global_tracer := 0%nat;
     w_log := [];
     w_observed := [] |}.

Definition with_active (o : PyObject) (w : World) : World :=
  set_context {| ctx_span := o |} w.

Definition vendor_span (tf : TraceFlags) : OtelSpan :=
  {| get_span_context :=
       {| sc_trace_id := 0x1f; sc_span_id := 0x2a; sc_is_remote := true;
          sc_trace_flags := tf; sc_trace_state := Some [("vendor", "value")];
          sc_is_valid := true |} |}.

(** A scope with the default keyword arguments, and caller code that nests:
    [outer] holds [failing], whose body raises and which the caller guards
    with [try], and then [next]. *)
Definition scope (name : string) : ScopeArgs :=
  {| arg_name := name; arg_kind := INTERNAL; arg_attributes := None;
     arg_links := None; arg_start_time := None; arg_record_exception := true;
     arg_set_status_on_exception := true; arg_end_on_exit := true |}.

Definition nested_example : Prog :=
  WithSpan (scope "outer")
    (Seq (TryExcept (WithSpan (scope "failing") (RaiseExc (UserError "ValueError" "boom")))
            Pass)
         (WithSpan (scope "next") Pass)).

(** * Properties *)

(** ** [Tracer.start_span] *)

Section StartSpan.

Variables (self : Tracer) (name : string) (context : option OtelContext)
          (kind : OtelSpanKind) (attributes : option Attributes)
          (links : option (list OtelLink)) (start_time : option Z)
          (record_exception set_status_on_exception : bool).

Lemma get_current_span_run w :
  get_current_span context w = (Returns (resolved_active context w), w).
Proof. reflexivity. Qed.

(** When the chain binds [dd_active] to [parent], exactly one native span
    is appended to the store, with that parent, and wrapped. *)
Lemma start_span_bound w parent :
  resolve_dd_active (resolved_active context w) w = (Returns (Bound parent), w) ->
  start_span self name context kind attributes links start_time
    record_exception set_status_on_exception w =
  (Returns (new_wrapper w kind attributes start_time
              record_exception set_status_on_exception),
   started self name parent w).
Proof.
  intros Hres. unfold start_span, bind.
  rewrite get_current_span_run, Hres. reflexivity.
Qed.

Lemma start_span_invalid w :
  resolved_active context w = INVALID_SPAN ->
  start_span self name context kind attributes links start_time
    record_exception set_status_on_exception w =
  (Returns (new_wrapper w kind attributes start_time
              record_exception set_status_on_exception),
   started self name child_None w).
Proof. intros H. apply start_span_bound. rewrite H. reflexivity. Qed.

Lemma start_span_bridge w a :
  resolved_active context w = BridgeSpan a ->
  start_span self name context kind attributes links start_time
    record_exception set_status_on_exception w =
  (Returns (new_wrapper w kind attributes start_time
              record_exception set_status_on_exception),
   started self name (child_Span (_ddspan a)) w).
Proof. intros H. apply start_span_bound. rewrite H. reflexivity. Qed.

Lemma start_span_foreign w f :
  resolved_active context w = ForeignSpan f ->
  start_span self name context kind attributes links start_time
    record_exception set_status_on_exception w =
  (Returns (new_wrapper w kind attributes start_time
              record_exception set_status_on_exception),
   started self name (child_Context (foreign_context f)) w).
Proof. intros H. apply start_span_bound. rewrite H. reflexivity. Qed.

(** The lookup never answers with an object that is no span, so the
    fourth branch of the chain is not reached and [dd_active] is always
    bound when it is read. *)
Lemma resolved_active_recognized w repr :
  resolved_active context w <> OtherObject repr.
Proof.
  unfold resolved_active. by destruct (ctx_span (default (w_context w) context)).
Qed.

Lemma resolve_dd_active_resolved w :
  resolve_dd_active (resolved_active context w) w =
  (Returns (Bound (dd_parent_of (resolved_active context w))), w).
Proof.
  pose proof (resolved_active_recognized w) as Hrec.
  destruct (resolved_active context w) as [|a|f|repr]; try reflexivity.
  by destruct (Hrec repr).
Qed.

(** Every call returns: one native span is appended to the store, parented
    by what the lookup answered, and wrapped. *)
Lemma start_span_run w :
  start_span self name context kind attributes links start_time
    record_exception set_status_on_exception w =
  (Returns (new_wrapper w kind attributes start_time
              record_exception set_status_on_exception),
   started self name (dd_parent_of (resolved_active context w)) w).
Proof. apply start_span_bound, resolve_dd_active_resolved. Qed.

(** The parent of the span just appended to the store. *)
Lemma native_parent_started w parent :
  native_parent (started self name parent w)
    (new_wrapper w kind attributes start_time
       record_exception set_status_on_exception) = Some parent.
Proof.
  unfold native_parent, started, new_wrapper, Span_init; simpl.
  rewrite list_lookup_middle; [reflexivity | lia].
Qed.

(** Spans that were in the store stay what they were. *)
Lemma started_keeps w parent (ref : DDSpanRef) d :
  w_spans w !! ref = Some d ->
  w_spans (started self name parent w) !! ref = Some d.
Proof. intros H. unfold started; simpl. by apply lookup_app_l_Some. Qed.

(** What the conversion of lines 90 to 93 puts in the context. *)
Lemma foreign_context_ids f :
  trace_id (foreign_context f) = sc_trace_id (get_span_context f) /\
  span_id (foreign_context f) = sc_span_id (get_span_context f).
Proof. destruct f as [[tid sid rem tf ts val]]. split; reflexivity. Qed.

Lemma foreign_context_priority f :
  sampling_priority (foreign_context f) =
  Some (match sc_trace_flags (get_span_context f) with
        | SAMPLED => 1
        | FlagsObject _ => 0
        end).
Proof. destruct f as [[tid sid rem tf ts val]]. reflexivity. Qed.

Lemma foreign_context_meta f :
  _meta (foreign_context f) =
  match sc_trace_state (get_span_context f) with
  | Some (kv :: rest) => {[ W3C_TRACESTATE_KEY := to_header (kv :: rest) ]}
  | _ => ∅
  end.
Proof. destruct f as [[tid sid rem tf [[|kv rest]|] val]]; reflexivity. Qed.

(** C7: with no active span in the resolved context (the lookup yields the
    sentinel [INVALID_SPAN]), [start_span] returns a span whose native span
    has no parent. *)
Theorem start_span_without_active_span_is_root w :
  resolved_active context w = INVALID_SPAN ->
  exists span w',
    start_span self name context kind attributes links start_time
      record_exception set_status_on_exception w = (Returns span, w') /\
    native_parent w' span = Some child_None.
Proof.
  intros H. eexists _, _. split.
  - by apply start_span_invalid.
  - apply native_parent_started.
Qed.

(** C5: while a span [a] of this bridge is active, the native span of the
    new span has [a]'s own native span as its parent, the object itself and
    no context built from ids; [a]'s native span is left as it was and is
    not the new one. *)
Theorem start_span_under_bridge_span_keeps_identity w a :
  resolved_active context w = BridgeSpan a ->
  exists span w',
    start_span self name context kind attributes links start_time
      record_exception set_status_on_exception w = (Returns span, w') /\
    native_parent w' span = Some (child_Span (_ddspan a)) /\
    (forall c, native_parent w' span <> Some (child_Context c)) /\
    (forall d, w_spans w !! _ddspan a = Some d ->
               w_spans w' !! _ddspan a = Some d /\ _ddspan span <> _ddspan a).
Proof.
  intros H. eexists _, _. split; [by apply start_span_bridge|].
  rewrite native_parent_started.
  split; [reflexivity|]. split; [intros c Hc; discriminate Hc|].
  intros d Hd. split; [by apply started_keeps|].
  apply lookup_lt_Some in Hd. unfold new_wrapper, Span_init; simpl. lia.
Qed.

(** C10: for a foreign active span, the context [start_span] parents the
    new span with has priority 1 exactly when the flags object is
    [TraceFlags.SAMPLED] itself and 0 for any other flags object, also one
    whose value has the sampled bit next to other bits; it has the
    trace-state entry exactly when the trace-state has a member, so neither
    an absent nor an empty trace-state writes an entry. *)
Theorem start_span_foreign_conversion_exact w f :
  resolved_active context w = ForeignSpan f ->
  exists span w' c,
    start_span self name context kind attributes links start_time
      record_exception set_status_on_exception w = (Returns span, w') /\
    native_parent w' span = Some (child_Context c) /\
    (sampling_priority c = Some 1 <->
       sc_trace_flags (get_span_context f) = SAMPLED) /\
    (sc_trace_flags (get_span_context f) <> SAMPLED ->
       sampling_priority c = Some 0) /\
    (sampled (sc_trace_flags (get_span_context f)) = true ->
     flags_value (sc_trace_flags (get_span_context f)) <> 1 ->
       sampling_priority c = Some 0) /\
    (is_Some (_meta c !! W3C_TRACESTATE_KEY) <->
       exists ts, sc_trace_state (get_span_context f) = Some ts /\ ts <> []) /\
    (forall ts, sc_trace_state (get_span_context f) = Some ts -> ts <> [] ->
       _meta c = {[ W3C_TRACESTATE_KEY := to_header ts ]}) /\
    (sc_trace_state (get_span_context f) = None \/
     sc_trace_state (get_span_context f) = Some [] ->
       _meta c = ∅).
Proof.
  intros H. eexists _, _, (foreign_context f).
  split; [by apply start_span_foreign|].
  split; [apply native_parent_started|].
  rewrite foreign_context_priority, foreign_context_meta.
  destruct (sc_trace_flags (get_span_context f)) as [|bits] eqn:Htf;
    destruct (sc_trace_state (get_span_context f)) as [[|kv rest]|] eqn:Hts;
    simpl; repeat split; intros; simplify_eq; try done;
    try (by destruct_or?; simplify_eq);
    try (by match goal with
            | H : is_Some (∅ !! _) |- _ => rewrite lookup_empty in H; destruct H
            | H : ∃ _, _ ∧ _ |- _ => destruct H as (? & ? & ?); simplify_eq
            end);
    try (rewrite lookup_singleton_eq; by eexists);
    try (eexists; split; [reflexivity | done]).
Qed.

(** Every call whose active span is recognized creates exactly one native
    span, parented by the bound [dd_active], activates nothing, and hands
    [kind], [attributes], [start_time] and both flags to the wrapper. *)
Lemma start_span_creates_one_inactive_span w parent :
  resolve_dd_active (resolved_active context w) w = (Returns (Bound parent), w) ->
  exists span w',
    start_span self name context kind attributes links start_time
      record_exception set_status_on_exception w = (Returns span, w') /\
    w_spans w' = w_spans w ++ [fresh_ddspan (_tracer self) name parent] /\
    _ddspan span = length (w_spans w) /\
    w_dd_active w' = w_dd_active w /\
    w_context w' = w_context w /\
    span_kind span = kind /\
    span_attributes span = attributes /\
    span_start_time span = start_time /\
    _record_exception span = record_exception /\
    _set_status_on_exception span = set_status_on_exception.
Proof.
  intros H. eexists _, _. split; [by apply start_span_bound|].
  repeat split.
Qed.

(** C8: every call to [start_span] creates exactly one native span through
    the native tracer, parented by the case the resolved active span falls
    in (none under the sentinel, the wrapper's own native span under a span
    of this bridge, the derived context under a foreign span; there is no
    other case); the call makes nothing current, neither for the native
    tracer nor in the current context; and the wrapper returned owns the new
    span and holds [kind], [attributes], [start_time] and both flags as
    given. *)
Theorem start_span_creates_exactly_one_native_span w :
  exists span w' parent,
    start_span self name context kind attributes links start_time
      record_exception set_status_on_exception w = (Returns span, w') /\
    w_spans w' = w_spans w ++ [fresh_ddspan (_tracer self) name parent] /\
    (resolved_active context w = INVALID_SPAN \/
     (exists a, resolved_active context w = BridgeSpan a) \/
     (exists f, resolved_active context w = ForeignSpan f)) /\
    (resolved_active context w = INVALID_SPAN -> parent = child_None) /\
    (forall a, resolved_active context w = BridgeSpan a ->
               parent = child_Span (_ddspan a)) /\
    (forall f, resolved_active context w = ForeignSpan f ->
               parent = child_Context (foreign_context f)) /\
    _ddspan span = length (w_spans w) /\
    w_dd_active w' = w_dd_active w /\
    w_context w' = w_context w /\
    span_kind span = kind /\
    span_attributes span = attributes /\
    span_start_time span = start_time /\
    _record_exception span = record_exception /\
    _set_status_on_exception span = set_status_on_exception.
Proof.
  eexists _, _, _. split; [apply start_span_run|].
  split; [reflexivity|].
  pose proof (resolved_active_recognized w) as Hrec.
  destruct (resolved_active context w) as [|a|f|repr].
  - split; [by left|]. repeat split; intros; by simplify_eq.
  - split; [right; left; by eexists|]. repeat split; intros; by simplify_eq.
  - split; [right; right; by eexists|]. repeat split; intros; by simplify_eq.
  - by destruct (Hrec repr).
Qed.

End StartSpan.

Lemma start_span_without_active_span_is_root_witness :
  resolved_active None empty_world = INVALID_SPAN /\
  exists span w',
    start_span (Tracer_init 0%nat) "root" None INTERNAL None None None true true
      empty_world = (Returns span, w') /\
    native_parent w' span = Some child_None.
Proof.
  split; [reflexivity|].
  apply (start_span_without_active_span_is_root
           (Tracer_init 0%nat) "root" None INTERNAL None None None true true empty_world).
  reflexivity.
Defined.

Lemma start_span_under_bridge_span_keeps_identity_witness :
  let a := Span_init 0%nat SERVER None None true true in
  let w := with_active (BridgeSpan a)
             (set_spans [fresh_ddspan 0%nat "a" child_None] empty_world) in
  resolved_active None w = BridgeSpan a /\
  exists span w',
    start_span (Tracer_init 0%nat) "b" None INTERNAL None None None true true w
      = (Returns span, w') /\
    native_parent w' span = Some (child_Span 0%nat).
Proof.
  intros a w. split; [reflexivity|].
  destruct (start_span_under_bridge_span_keeps_identity
              (Tracer_init 0%nat) "b" None INTERNAL None None None true true w a eq_refl)
    as (span & w' & Hrun & Hparent & _).
  exists span, w'. split; assumption.
Defined.

Lemma start_span_foreign_conversion_exact_witness :
  let f := vendor_span (FlagsObject 3) in
  let w := with_active (ForeignSpan f) empty_world in
  resolved_active None w = ForeignSpan f /\
  exists span w' c,
    start_span (Tracer_init 0%nat) "child" None INTERNAL None None None true true w
      = (Returns span, w') /\
    native_parent w' span = Some (child_Context c) /\
    sampling_priority c = Some 0 /\
    _meta c = {[ W3C_TRACESTATE_KEY := "vendor=value" ]}.
Proof.
  intros f w. split; [reflexivity|].
  destruct (start_span_foreign_conversion_exact
              (Tracer_init 0%nat) "child" None INTERNAL None None None true true w f eq_refl)
    as (span & w' & c & Hrun & Hparent & _ & Hzero & _ & _ & Hmeta & _).
  exists span, w', c. repeat split; try assumption.
  - apply Hzero. discriminate.
  - apply (Hmeta [("vendor", "value")]); [reflexivity | discriminate].
Defined.



(** C3: the code departs from the claim.  A foreign span whose flags object
    is not [TraceFlags.SAMPLED] itself gets priority 0 whatever its value:
    flags [0x03] and a separate object of value [0x01] are sampled, and the
    context derived from them has priority 0. *)
Theorem start_span_foreign_sampled_flags_priority_0
    self name kind attributes links start_time
    record_exception set_status_on_exception
    tid sid remote bits ts valid w :
  sampled (FlagsObject 3) = true /\
  sampled (FlagsObject 1) = true /\
  exists span w' c,
    start_span self name None kind attributes links start_time
      record_exception set_status_on_exception
      (with_active
         (ForeignSpan
            {| get_span_context :=
                 mkSpanContext tid sid remote (FlagsObject bits) ts valid |}) w)
      = (Returns span, w') /\
    native_parent w' span = Some (child_Context c) /\
    sampling_priority c = Some 0.
Proof.
  split; [reflexivity|]. split; [reflexivity|].
  eexists _, _, _. split; [by eapply start_span_foreign|].
  split; [apply native_parent_started|].
  apply foreign_context_priority.
Qed.

(** C6: the code departs from the claim.  The trace-state entry is the
    header string as serialized ([vendor=value] here) and the priority is 1
    when the flags object is [TraceFlags.SAMPLED] itself; with the sampled
    flags [0x03] the same span gets priority 0. *)
Theorem start_span_foreign_vendor_trace_state :
  (exists span w' c,
     start_span (Tracer_init 0%nat) "child" None INTERNAL None None None true true
       (with_active (ForeignSpan (vendor_span SAMPLED)) empty_world)
       = (Returns span, w') /\
     native_parent w' span = Some (child_Context c) /\
     sampling_priority c = Some 1 /\
     _meta c !! W3C_TRACESTATE_KEY = Some "vendor=value") /\
  sampled (sc_trace_flags (get_span_context (vendor_span (FlagsObject 3)))) = true /\
  (exists span w' c,
     start_span (Tracer_init 0%nat) "child" None INTERNAL None None None true true
       (with_active (ForeignSpan (vendor_span (FlagsObject 3))) empty_world)
       = (Returns span, w') /\
     native_parent w' span = Some (child_Context c) /\
     sampling_priority c = Some 0 /\
     _meta c !! W3C_TRACESTATE_KEY = Some "vendor=value").
Proof.
  split; [|split; [reflexivity|]].
  - eexists _, _, _. split; [by eapply start_span_foreign|].
    split; [apply native_parent_started|].
    split; [apply foreign_context_priority|].
    rewrite foreign_context_meta. apply lookup_singleton_eq.
  - eexists _, _, _. split; [by eapply start_span_foreign|].
    split; [apply native_parent_started|].
    split; [apply foreign_context_priority|].
    rewrite foreign_context_meta. apply lookup_singleton_eq.
Qed.

(** ** [TracerProvider.get_tracer] *)

(** A provider holds the process-wide native tracer and changes nothing. *)
Lemma TracerProvider_init_run w :
  TracerProvider_init w = (Returns {| _ddtracer := w_global_tracer w |}, w).
Proof. reflexivity. Qed.

(** C9: two calls of [get_tracer] on one provider that differ in the
    instrumenting-module name, the library version or the schema url return
    the same tracer state, holding the provider's native tracer, and so
    behave the same in [start_span] and [start_as_current_span]. *)
Theorem get_tracer_ignores_instrumentation_arguments
    (self : TracerProvider) (n1 n2 : string) (v1 v2 s1 s2 : option string) :
  get_tracer self n1 v1 s1 = get_tracer self n2 v2 s2 /\
  _tracer (get_tracer self n1 v1 s1) = _ddtracer self /\
  _tracer (get_tracer self n2 v2 s2) = _ddtracer self /\
  (forall name context kind attributes links start_time
          record_exception set_status_on_exception w,
     start_span (get_tracer self n1 v1 s1) name context kind attributes links
       start_time record_exception set_status_on_exception w =
     start_span (get_tracer self n2 v2 s2) name context kind attributes links
       start_time record_exception set_status_on_exception w) /\
  (forall A name context kind attributes links start_time
          record_exception set_status_on_exception end_on_exit
          (body : Span -> M A) w,
     start_as_current_span (get_tracer self n1 v1 s1) name context kind
       attributes links start_time record_exception set_status_on_exception
       end_on_exit body w =
     start_as_current_span (get_tracer self n2 v2 s2) name context kind
       attributes links start_time record_exception set_status_on_exception
       end_on_exit body w).
Proof. repeat split. Qed.

(** ** The store of native spans *)

Lemma alter_alter {X} (f g : X -> X) (i : nat) (l : list X) :
  alter f i (alter g i l) = alter (f ∘ g) i l.
Proof.
  revert i. induction l as [|x l IH]; intros [|i]; simpl; try reflexivity.
  f_equal. apply IH.
Qed.

Lemma alter_span_spans ref f w :
  w_spans (alter_span ref f w) = alter f ref (w_spans w).
Proof. reflexivity. Qed.

(** The bookkeeping of a scope touches the store only, and there only the
    span of the scope. *)
Lemma bookkeeping_spans span eoe rec sts exc w :
  w_spans (bookkeeping span eoe rec sts exc w) =
  alter (booked span eoe rec sts exc) (_ddspan span) (w_spans w).
Proof.
  unfold bookkeeping, booked.
  destruct exc as [e|], eoe, (rec && _record_exception span),
    (sts && _set_status_on_exception span);
    rewrite ?alter_span_spans, ?alter_alter; try reflexivity;
    symmetry; by apply list_alter_id.
Qed.

Lemma bookkeeping_frame span eoe rec sts exc w :
  w_context (bookkeeping span eoe rec sts exc w) = w_context w /\
  w_observed (bookkeeping span eoe rec sts exc w) = w_observed w /\
  w_log (bookkeeping span eoe rec sts exc w) = w_log w /\
  w_dd_active (bookkeeping span eoe rec sts exc w) = w_dd_active w /\
  length (w_spans (bookkeeping span eoe rec sts exc w)) = length (w_spans w).
Proof.
  rewrite bookkeeping_spans, length_alter. unfold bookkeeping.
  destruct exc as [e|], eoe, (rec && _record_exception span),
    (sts && _set_status_on_exception span); repeat split.
Qed.

Lemma booked_fields span eoe rec sts e d :
  (rec && _record_exception span = true ->
     dd_exception (booked span eoe rec sts (Some e) d) = Some e) /\
  (sts && _set_status_on_exception span = true ->
     dd_error (booked span eoe rec sts (Some e) d) = true) /\
  (eoe = true -> dd_finished (booked span eoe rec sts (Some e) d) = true) /\
  dd_parent (booked span eoe rec sts (Some e) d) = dd_parent d /\
  dd_name (booked span eoe rec sts (Some e) d) = dd_name d /\
  dd_tracer (booked span eoe rec sts (Some e) d) = dd_tracer d.
Proof.
  unfold booked, finish.
  destruct eoe, (rec && _record_exception span),
    (sts && _set_status_on_exception span), d as [t n p x err []];
    simpl; repeat split; intros; congruence.
Qed.

(** ** Scoped activation: [use_span] and [Tracer.start_as_current_span] *)

Section Scope.

Context {A : Type}.

Variables (self : Tracer) (name : string) (context : option OtelContext)
          (kind : OtelSpanKind) (attributes : option Attributes)
          (links : option (list OtelLink)) (start_time : option Z)
          (record_exception set_status_on_exception end_on_exit : bool)
          (body : Span -> M A).

(** The scope as one equation: the body runs with the span active, then the
    bookkeeping is done on the world the body left, and the context the
    scope was entered from is put back. *)
Lemma use_span_run span eoe rec sts w :
  use_span span eoe rec sts body w =
  (fst (body span (entered span w)),
   set_context (w_context w)
     (bookkeeping span eoe rec sts
        (raised (fst (body span (entered span w))))
        (snd (body span (entered span w))))).
Proof.
  unfold use_span, bind, attach, try_finally, on_exception, entered. simpl.
  destruct (body span _) as [[x|e] w2]; simpl.
  - destruct eoe; reflexivity.
  - unfold bookkeeping, Span_record_exception, Span_set_status_error, bind.
    destruct rec, sts, (_record_exception span), (_set_status_on_exception span),
      eoe; reflexivity.
Qed.

Lemma start_as_current_span_run w span w1 :
  start_span self name context kind attributes links start_time
    record_exception set_status_on_exception w = (Returns span, w1) ->
  start_as_current_span self name context kind attributes links start_time
    record_exception set_status_on_exception end_on_exit body w =
  (fst (body span (entered span w1)),
   set_context (w_context w1)
     (bookkeeping span end_on_exit record_exception set_status_on_exception
        (raised (fst (body span (entered span w1))))
        (snd (body span (entered span w1))))).
Proof.
  intros Hstart. unfold start_as_current_span, bind. rewrite Hstart.
  apply use_span_run.
Qed.

(** What a successful [start_span] returned and did. *)
Lemma start_span_inv w span w1 :
  start_span self name context kind attributes links start_time
    record_exception set_status_on_exception w = (Returns span, w1) ->
  exists parent,
    resolve_dd_active (resolved_active context w) w = (Returns (Bound parent), w) /\
    span = new_wrapper w kind attributes start_time
             record_exception set_status_on_exception /\
    w1 = started self name parent w.
Proof.
  rewrite start_span_run. intros [= <- <-].
  exists (dd_parent_of (resolved_active context w)).
  split; [apply resolve_dd_active_resolved | by split].
Qed.

(** C4: when the body of a [start_as_current_span] scope raises [e], the
    caller gets [e] itself, and in the world it then sees the exception is
    recorded on the span's native span if [record_exception], the status is
    error if [set_status_on_exception], the native span is finished if
    [end_on_exit], and the context the scope was entered from is current
    again. *)
Theorem exception_in_scope_propagates_after_bookkeeping w span w1 e w2 :
  start_span self name context kind attributes links start_time
    record_exception set_status_on_exception w = (Returns span, w1) ->
  body span (entered span w1) = (Raises e, w2) ->
  exists w',
    start_as_current_span self name context kind attributes links start_time
      record_exception set_status_on_exception end_on_exit body w
      = (Raises e, w') /\
    w_context w' = w_context w /\
    forall d, w_spans w2 !! _ddspan span = Some d ->
      exists d',
        w_spans w' !! _ddspan span = Some d' /\
        (record_exception = true -> dd_exception d' = Some e) /\
        (set_status_on_exception = true -> dd_error d' = true) /\
        (end_on_exit = true -> dd_finished d' = true) /\
        dd_parent d' = dd_parent d.
Proof.
  intros Hstart Hbody.
  rewrite (start_as_current_span_run w span w1 Hstart), Hbody. simpl.
  eexists. split; [reflexivity|].
  destruct (start_span_inv w span w1 Hstart) as (parent & _ & Hspan & ->).
  split; [reflexivity|].
  intros d Hd. simpl.
  exists (booked span end_on_exit record_exception set_status_on_exception (Some e) d).
  split.
  { rewrite bookkeeping_spans, list_lookup_alter_eq.
    unfold DDSpanRef in *. by rewrite Hd. }
  destruct (booked_fields span end_on_exit record_exception
              set_status_on_exception e d) as (Hexc & Herr & Hfin & Hpar & _).
  subst span. simpl in *.
  repeat split; try assumption.
  - intros ->. by apply Hexc.
  - intros ->. by apply Herr.
Qed.

End Scope.

Lemma exception_in_scope_propagates_after_bookkeeping_witness :
  let e := UserError "ValueError" "boom" in
  let span := Span_init 0%nat INTERNAL None None true true in
  let w1 := started (Tracer_init 0%nat) "work" child_None empty_world in
  start_span (Tracer_init 0%nat) "work" None INTERNAL None None None true true
    empty_world = (Returns span, w1) /\
  (fun _ : Span => @raise unit e) span (entered span w1) = (Raises e, entered span w1) /\
  exists w' d',
    start_as_current_span (Tracer_init 0%nat) "work" None INTERNAL None None None
      true true true (fun _ => @raise unit e) empty_world = (Raises e, w') /\
    w_context w' = w_context empty_world /\
    w_spans w' !! 0%nat = Some d' /\
    dd_exception d' = Some e /\ dd_error d' = true /\ dd_finished d' = true.
Proof.
  intros e span w1. split; [reflexivity|]. split; [reflexivity|].
  destruct (exception_in_scope_propagates_after_bookkeeping
              (Tracer_init 0%nat) "work" None INTERNAL None None None true true true
              (fun _ => @raise unit e) empty_world span w1 e (entered span w1)
              eq_refl eq_refl)
    as (w' & Hrun & Hctx & Hspan).
  destruct (Hspan (fresh_ddspan 0%nat "work" child_None) eq_refl)
    as (d' & Hd' & Hexc & Herr & Hfin & _).
  exists w', d'. repeat split; auto.
Defined.

(** ** Nested scopes *)

Lemma world_ext (w w' : World) :
  w_context w = w_context w' ->
  w_spans w = w_spans w' ->
  w_dd_active w = w_dd_active w' ->
  w_global_tracer w = w_global_tracer w' ->
  w_log w = w_log w' ->
  w_observed w = w_observed w' ->
  w = w'.
Proof. destruct w, w'; simpl; intros; by subst. Qed.

(** What the lookup answers is a parent in the sense of the notes. *)
Lemma parent_is_dd_parent_of active :
  (forall repr, active <> OtherObject repr) ->
  parent_is active (dd_parent_of active).
Proof.
  intros Hrec. destruct active as [|a|f|repr]; simpl; try done.
  - apply foreign_context_ids.
  - by destruct (Hrec repr).
Qed.

(** The block under the [with]: the caller notes the new span's parent,
    then runs the body. *)
Lemma noting_body_run tracer body before span w :
  (let* parent := recorded_parent span in
   let* _ := observe (Started before parent) in
   run tracer body) w =
  run tracer body
    (set_observed (w_observed w ++ [Started before (native_parent w span)]) w).
Proof. reflexivity. Qed.

(** One scope of caller code: the two notes around the run of the body,
    the bookkeeping and the restored context. *)
Lemma run_WithSpan_entered tracer a body w :
  let before := resolved_active None w in
  let parent := dd_parent_of before in
  let span := new_wrapper w (arg_kind a) (arg_attributes a) (arg_start_time a)
                (arg_record_exception a) (arg_set_status_on_exception a) in
  let w1 := set_observed (w_observed w ++ [Started before (Some parent)])
              (entered span (started tracer (arg_name a) parent w)) in
  let r := fst (run tracer body w1) in
  let w2 := snd (run tracer body w1) in
  let w3 := set_context (w_context w)
              (bookkeeping span (arg_end_on_exit a) (arg_record_exception a)
                 (arg_set_status_on_exception a) (raised r) w2) in
  run tracer (WithSpan a body) w =
  (r, set_observed (w_observed w3 ++ [Exited before before]) w3).
Proof.
  intros before parent span w1 r w2 w3.
  simpl run. unfold bind at 1. rewrite get_current_span_run.
  unfold try_finally.
  rewrite (start_as_current_span_run _ _ _ _ _ _ _ _ _ _ _ w span
             (started tracer (arg_name a) parent w)
             (start_span_run _ _ None _ _ _ _ _ _ w)).
  rewrite (noting_body_run tracer body (resolved_active None w) span
             (entered span (started tracer (arg_name a) parent w))).
  change (native_parent (entered span (started tracer (arg_name a) parent w)) span)
    with (native_parent (started tracer (arg_name a) parent w) span).
  assert (Hparent : native_parent (started tracer (arg_name a) parent w) span
                    = Some parent) by apply native_parent_started.
  rewrite Hparent. reflexivity.
Qed.

(** The notes of the stack model say, one by one, that the recorded parent
    is the span on top of the stack and that a scope gives the top back. *)
Lemma lifo_notes_ok tracer p active spans :
  (forall repr, active <> OtherObject repr) ->
  Forall observation_ok (snd (lifo tracer p active spans)).
Proof.
  revert active spans.
  induction p as [|p IHp q IHq|e|p IHp h IHh|a body IHbody];
    intros active spans Hrec; simpl.
  - constructor.
  - specialize (IHp active spans Hrec).
    destruct (lifo tracer p active spans) as [[[[]|e] spans1] notes1]; simpl in *.
    + specialize (IHq active spans1 Hrec).
      destruct (lifo tracer q active spans1) as [[r spans2] notes2]; simpl in *.
      by apply Forall_app.
    + exact IHp.
  - constructor.
  - specialize (IHp active spans Hrec).
    destruct (lifo tracer p active spans) as [[[[]|e] spans1] notes1]; simpl in *.
    + exact IHp.
    + specialize (IHh active spans1 Hrec).
      destruct (lifo tracer h active spans1) as [[r spans2] notes2]; simpl in *.
      by apply Forall_app.
  - match goal with
    | |- context [lifo tracer body ?act ?sp] =>
        specialize (IHbody act sp ltac:(discriminate));
        destruct (lifo tracer body act sp) as [[r spans1] notes1]
    end.
    simpl in *. constructor; [by apply parent_is_dd_parent_of|].
    apply Forall_app. split; [exact IHbody | by repeat constructor].
Qed.

(** C2: caller code made of nested [start_as_current_span] scopes in one
    execution context runs as on a stack of active spans: every scope
    starts one native span whose recorded parent is the span that was
    active just before, which inside a scope is that scope's own span; the
    body runs with the new span active; and once the scope is left,
    normally or by an exception, the active span is the one from before the
    scope, so that what follows is parented as if the scope had not been.
    The outcome, the store of native spans and the caller's notes are those
    of the stack model, and the current context, the log and the native
    tracer's active span are the ones the run started from. *)
Theorem nested_scopes_follow_the_stack tracer p w :
  run tracer p w =
  (fst (fst (lifo tracer p (resolved_active None w) (w_spans w))),
   noted (snd (fst (lifo tracer p (resolved_active None w) (w_spans w))))
     (snd (lifo tracer p (resolved_active None w) (w_spans w))) w) /\
  Forall observation_ok (snd (lifo tracer p (resolved_active None w) (w_spans w))).
Proof.
  split; [|apply lifo_notes_ok, resolved_active_recognized].
  revert w. induction p as [|p IHp q IHq|e|p IHp h IHh|a body IHbody]; intros w.
  - simpl. f_equal. apply world_ext; simpl; by rewrite ?app_nil_r.
  - simpl run. unfold bind. rewrite IHp. simpl lifo.
    destruct (lifo tracer p (resolved_active None w) (w_spans w))
      as [[[[]|e] spans1] notes1]; simpl fst; simpl snd; [|reflexivity].
    rewrite IHq.
    change (resolved_active None (noted spans1 notes1 w))
      with (resolved_active None w).
    change (w_spans (noted spans1 notes1 w)) with spans1.
    destruct (lifo tracer q (resolved_active None w) spans1)
      as [[r spans2] notes2]; simpl.
    f_equal. apply world_ext; simpl; by rewrite ?app_assoc.
  - simpl. f_equal. apply world_ext; simpl; by rewrite ?app_nil_r.
  - simpl run. unfold try_except. rewrite IHp. simpl lifo.
    destruct (lifo tracer p (resolved_active None w) (w_spans w))
      as [[[[]|e] spans1] notes1]; simpl fst; simpl snd; [reflexivity|].
    rewrite IHh.
    change (resolved_active None (noted spans1 notes1 w))
      with (resolved_active None w).
    change (w_spans (noted spans1 notes1 w)) with spans1.
    destruct (lifo tracer h (resolved_active None w) spans1)
      as [[r spans2] notes2]; simpl.
    f_equal. apply world_ext; simpl; by rewrite ?app_assoc.
  - rewrite run_WithSpan_entered. rewrite IHbody. simpl lifo.
    set (span := new_wrapper w (arg_kind a) (arg_attributes a) (arg_start_time a)
                   (arg_record_exception a) (arg_set_status_on_exception a)).
    set (parent := dd_parent_of (resolved_active None w)).
    set (w1 := set_observed _ (entered span _)).
    change (resolved_active None w1) with (BridgeSpan span).
    change (w_spans w1)
      with (w_spans w ++ [fresh_ddspan (_tracer tracer) (arg_name a) parent]).
    change (Span_init (length (w_spans w)) (arg_kind a) (arg_attributes a)
              (arg_start_time a) (arg_record_exception a)
              (arg_set_status_on_exception a)) with span.
    destruct (lifo tracer body (BridgeSpan span)
                (w_spans w ++ [fresh_ddspan (_tracer tracer) (arg_name a) parent]))
      as [[r spans1] notes1]; simpl fst; simpl snd.
    f_equal.
    destruct (bookkeeping_frame span (arg_end_on_exit a) (arg_record_exception a)
                (arg_set_status_on_exception a) (raised r) (noted spans1 notes1 w1))
      as (_ & Hobs & Hlog & Hact & _).
    apply world_ext; simpl.
    + reflexivity.
    + by rewrite bookkeeping_spans.
    + by rewrite Hact.
    + unfold bookkeeping.
      destruct (raised r), (arg_end_on_exit a),
        (arg_record_exception a && _record_exception span),
        (arg_set_status_on_exception a && _set_status_on_exception span);
        reflexivity.
    + by rewrite Hlog.
    + rewrite Hobs. simpl. by rewrite <- !app_assoc.
Qed.

(** The notes of [nested_example], run with nothing active: both inner
    scopes are children of [outer]'s native span, the failing one carries
    the exception, and every scope gives back the active span it found. *)
Example nested_example_notes :
  let outer := BridgeSpan (Span_init 0%nat INTERNAL None None true true) in
  let w' := snd (run (Tracer_init 0%nat) nested_example empty_world) in
  fst (run (Tracer_init 0%nat) nested_example empty_world) = Returns tt /\
  w_observed w' =
    [ Started INVALID_SPAN (Some child_None);
      Started outer (Some (child_Span 0%nat));
      Exited outer outer;
      Started outer (Some (child_Span 0%nat));
      Exited outer outer;
      Exited INVALID_SPAN INVALID_SPAN ] /\
  dd_parent <$> w_spans w' = [child_None; child_Span 0%nat; child_Span 0%nat] /\
  dd_exception <$> w_spans w' = [None; Some (UserError "ValueError" "boom"); None] /\
  dd_finished <$> w_spans w' = [true; true; true] /\
  w_context w' = w_context empty_world.
Proof. repeat split. Qed.

(** * Further properties of the bridge *)

(** ** What [start_span] leaves alone *)

Section StartSpanFrame.

Variables (self : Tracer) (name : string) (context : option OtelContext)
          (kind : OtelSpanKind) (attributes : option Attributes)
          (links : option (list OtelLink)) (start_time : option Z)
          (record_exception set_status_on_exception : bool).

(** How every call goes: the chain binds [dd_active] and the call
    returns. *)
Lemma start_span_cases w :
  exists parent,
    resolve_dd_active (resolved_active context w) w = (Returns (Bound parent), w) /\
    (forall repr, resolved_active context w <> OtherObject repr) /\
    start_span self name context kind attributes links start_time
      record_exception set_status_on_exception w =
    (Returns (new_wrapper w kind attributes start_time
                record_exception set_status_on_exception),
     started self name parent w).
Proof.
  exists (dd_parent_of (resolved_active context w)).
  split; [apply resolve_dd_active_resolved|].
  split; [apply resolved_active_recognized | apply start_span_run].
Qed.

(** X1: whatever the outcome, [start_span] leaves the current context, the
    native tracer's active span and the global tracer as they were, and
    every native span already in the store stays unchanged under its
    reference. *)
Theorem start_span_activates_nothing w :
  w_context (snd (start_span self name context kind attributes links start_time
                    record_exception set_status_on_exception w)) = w_context w /\
  w_dd_active (snd (start_span self name context kind attributes links start_time
                      record_exception set_status_on_exception w)) = w_dd_active w /\
  w_global_tracer (snd (start_span self name context kind attributes links
                          start_time record_exception set_status_on_exception w))
    = w_global_tracer w /\
  (forall (ref : DDSpanRef) d,
     w_spans w !! ref = Some d ->
     w_spans (snd (start_span self name context kind attributes links start_time
                     record_exception set_status_on_exception w)) !! ref = Some d).
Proof.
  destruct (start_span_cases w) as (parent & _ & _ & ->); simpl.
  repeat split. intros ref d Hd. by apply lookup_app_l_Some.
Qed.

(** X3: when [start_span] returns, the resolved active object was a
    recognized one, nothing was logged, the store grew by exactly one native
    span, and the wrapper owns that new span, which no reference of the
    earlier store names. *)
Theorem start_span_returns_fresh_span_without_logging w span w' :
  start_span self name context kind attributes links start_time
    record_exception set_status_on_exception w = (Returns span, w') ->
  (forall repr, resolved_active context w <> OtherObject repr) /\
  w_log w' = w_log w /\
  length (w_spans w') = S (length (w_spans w)) /\
  w_spans w !! _ddspan span = None /\
  is_Some (w_spans w' !! _ddspan span).
Proof.
  destruct (start_span_cases w) as (parent & _ & Hrec & ->).
  intros [= <- <-]. split; [exact Hrec|]. split; [reflexivity|].
  unfold started, new_wrapper, Span_init; simpl.
  split; [rewrite length_app; simpl; lia|].
  split; [by apply lookup_ge_None_2|].
  rewrite list_lookup_middle by reflexivity. by eexists.
Qed.

End StartSpanFrame.

Lemma start_span_returns_fresh_span_without_logging_witness :
  let a := Span_init 0%nat SERVER None None true true in
  let w := with_active (BridgeSpan a)
             (set_spans [fresh_ddspan 0%nat "a" child_None] empty_world) in
  let span := Span_init 1%nat CLIENT None (Some 17) false true in
  let w' := started (Tracer_init 0%nat) "b" (child_Span 0%nat) w in
  start_span (Tracer_init 0%nat) "b" None CLIENT None None (Some 17) false true w
    = (Returns span, w') /\
  w_log w' = w_log w /\
  length (w_spans w') = 2%nat /\
  w_spans w !! 1%nat = None.
Proof.
  intros a w span w'. split; [reflexivity|].
  destruct (start_span_returns_fresh_span_without_logging
              (Tracer_init 0%nat) "b" None CLIENT None None (Some 17) false true
              w span w' eq_refl) as (_ & Hlog & Hlen & Hfresh & _).
  split; [exact Hlog|]. split; [exact Hlen | exact Hfresh].
Defined.

(** ** Which context [start_span] resolves *)

Section StartSpanContext.

Variables (self : Tracer) (name : string)
          (kind : OtelSpanKind) (attributes : option Attributes)
          (links : option (list OtelLink)) (start_time : option Z)
          (record_exception set_status_on_exception : bool).

(** X4: leaving [context] out is the same as passing the current context;
    and when a context is passed, the span active in the current context
    has no part in the call: the outcome and the native spans are those of
    the same call under any other active object. *)
Theorem start_span_resolves_the_given_context c o w :
  start_span self name None kind attributes links start_time
    record_exception set_status_on_exception w =
  start_span self name (Some (w_context w)) kind attributes links start_time
    record_exception set_status_on_exception w /\
  fst (start_span self name (Some c) kind attributes links start_time
         record_exception set_status_on_exception (with_active o w)) =
  fst (start_span self name (Some c) kind attributes links start_time
         record_exception set_status_on_exception w) /\
  w_spans (snd (start_span self name (Some c) kind attributes links start_time
                  record_exception set_status_on_exception (with_active o w))) =
  w_spans (snd (start_span self name (Some c) kind attributes links start_time
                  record_exception set_status_on_exception w)).
Proof.
  split; [reflexivity|].
  rewrite (start_span_run self name (Some c) kind attributes links start_time
             record_exception set_status_on_exception (with_active o w)).
  rewrite (start_span_run self name (Some c) kind attributes links start_time
             record_exception set_status_on_exception w).
  split; reflexivity.
Qed.

(** X5: of the six fields of a foreign span's context the conversion reads
    four: the derived parent carries the foreign trace id and span id, and
    two foreign spans that differ only in [is_remote] and [is_valid] give
    the same outcome and the same native spans.  A foreign span whose
    context is not valid is still taken as a parent. *)
Theorem start_span_foreign_ignores_remote_and_valid
    tid sid remote remote' tf ts valid valid' w :
  let f := {| get_span_context := mkSpanContext tid sid remote tf ts valid |} in
  let f' := {| get_span_context := mkSpanContext tid sid remote' tf ts valid' |} in
  fst (start_span self name None kind attributes links start_time
         record_exception set_status_on_exception (with_active (ForeignSpan f) w)) =
  fst (start_span self name None kind attributes links start_time
         record_exception set_status_on_exception (with_active (ForeignSpan f') w)) /\
  w_spans (snd (start_span self name None kind attributes links start_time
                  record_exception set_status_on_exception
                  (with_active (ForeignSpan f) w))) =
  w_spans (snd (start_span self name None kind attributes links start_time
                  record_exception set_status_on_exception
                  (with_active (ForeignSpan f') w))) /\
  exists span w' c,
    start_span self name None kind attributes links start_time
      record_exception set_status_on_exception (with_active (ForeignSpan f) w)
      = (Returns span, w') /\
    native_parent w' span = Some (child_Context c) /\
    trace_id c = tid /\ span_id c = sid.
Proof.
  intros f f'.
  rewrite (start_span_foreign self name None kind attributes links start_time
             record_exception set_status_on_exception
             (with_active (ForeignSpan f) w) f eq_refl).
  rewrite (start_span_foreign self name None kind attributes links start_time
             record_exception set_status_on_exception
             (with_active (ForeignSpan f') w) f' eq_refl).
  split; [reflexivity|]. split; [reflexivity|].
  eexists _, _, _. split; [reflexivity|].
  split; [apply native_parent_started|]. split; reflexivity.
Qed.

(** X6: the conversion never raises the sampling decision: the derived
    priority is 0 or 1, it is 1 only for a foreign span that is sampled, and
    a foreign span that is not sampled always gets 0. *)
Theorem start_span_foreign_priority_1_only_if_sampled context w f :
  resolved_active context w = ForeignSpan f ->
  exists span w' c,
    start_span self name context kind attributes links start_time
      record_exception set_status_on_exception w = (Returns span, w') /\
    native_parent w' span = Some (child_Context c) /\
    (sampling_priority c = Some 0 \/ sampling_priority c = Some 1) /\
    (sampling_priority c = Some 1 ->
       sampled (sc_trace_flags (get_span_context f)) = true) /\
    (sampled (sc_trace_flags (get_span_context f)) = false ->
       sampling_priority c = Some 0).
Proof.
  intros Hactive. eexists _, _, (foreign_context f).
  split; [by apply start_span_foreign|].
  split; [apply native_parent_started|].
  rewrite foreign_context_priority.
  destruct (sc_trace_flags (get_span_context f)) as [|bits]; simpl.
  - split; [by right|]. split; [reflexivity | discriminate].
  - split; [by left|]. split; [discriminate | reflexivity].
Qed.

(** X7: [start_span] does not make its span current, so a second call in
    the same context is parented like the first: the two native spans are
    distinct and have the same parent, and the first one is not the parent
    of the second. *)
Theorem start_span_twice_gives_siblings context
    name' kind' attributes' links' start_time'
    record_exception' set_status_on_exception' w s1 w1 :
  start_span self name context kind attributes links start_time
    record_exception set_status_on_exception w = (Returns s1, w1) ->
  (forall a, resolved_active context w = BridgeSpan a ->
             is_Some (w_spans w !! _ddspan a)) ->
  exists s2 w2,
    start_span self name' context kind' attributes' links' start_time'
      record_exception' set_status_on_exception' w1 = (Returns s2, w2) /\
    _ddspan s2 <> _ddspan s1 /\
    is_Some (native_parent w2 s2) /\
    native_parent w2 s2 = native_parent w2 s1 /\
    native_parent w2 s2 <> Some (child_Span (_ddspan s1)).
Proof.
  intros Hfirst Hlive.
  destruct (start_span_cases self name context kind attributes links start_time
              record_exception set_status_on_exception w)
    as (parent & Hres & Hrec & Hrun).
  rewrite Hrun in Hfirst. injection Hfirst as <- <-.
  assert (Hres' : resolve_dd_active
                    (resolved_active context (started self name parent w))
                    (started self name parent w)
                  = (Returns (Bound parent), started self name parent w)).
  { change (resolved_active context (started self name parent w))
      with (resolved_active context w).
    destruct (resolved_active context w); simpl in *;
      unfold bind, log_error, ret in *; simpl in *; by simplify_eq. }
  eexists _, _. split.
  { apply (start_span_bound self name' context kind' attributes' links' start_time'
             record_exception' set_status_on_exception' _ parent Hres'). }
  rewrite native_parent_started.
  unfold native_parent, new_wrapper, Span_init, started; simpl.
  rewrite length_app; simpl.
  split; [lia|]. split; [by eexists|].
  split.
  { rewrite lookup_app_l by (rewrite length_app; simpl; lia).
    rewrite list_lookup_middle by reflexivity. reflexivity. }
  intros [= ->].
  destruct (resolved_active context w) as [|a|f|repr] eqn:Hactive; simpl in Hres;
    unfold bind, log_error, ret in Hres; simpl in Hres; simplify_eq.
  destruct (Hlive a eq_refl) as [d Hd]. apply lookup_lt_Some in Hd. lia.
Qed.

End StartSpanContext.

Lemma start_span_foreign_priority_1_only_if_sampled_witness :
  let f := vendor_span (FlagsObject 2) in
  let w := with_active (ForeignSpan f) empty_world in
  resolved_active None w = ForeignSpan f /\
  sampled (sc_trace_flags (get_span_context f)) = false /\
  exists span w' c,
    start_span (Tracer_init 0%nat) "child" None INTERNAL None None None true true w
      = (Returns span, w') /\
    native_parent w' span = Some (child_Context c) /\
    sampling_priority c = Some 0.
Proof.
  intros f w. split; [reflexivity|]. split; [reflexivity|].
  destruct (start_span_foreign_priority_1_only_if_sampled
              (Tracer_init 0%nat) "child" INTERNAL None None None true true
              None w f eq_refl)
    as (span & w' & c & Hrun & Hparent & _ & _ & Hzero).
  exists span, w', c. split; [exact Hrun|]. split; [exact Hparent|].
  apply Hzero. reflexivity.
Defined.

Lemma start_span_twice_gives_siblings_witness :
  let a := Span_init 0%nat SERVER None None true true in
  let w := with_active (BridgeSpan a)
             (set_spans [fresh_ddspan 0%nat "a" child_None] empty_world) in
  let s1 := Span_init 1%nat INTERNAL None None true true in
  let w1 := started (Tracer_init 0%nat) "b" (child_Span 0%nat) w in
  start_span (Tracer_init 0%nat) "b" None INTERNAL None None None true true w
    = (Returns s1, w1) /\
  (forall a', resolved_active None w = BridgeSpan a' ->
              is_Some (w_spans w !! _ddspan a')) /\
  exists s2 w2,
    start_span (Tracer_init 0%nat) "c" None CLIENT None None None false false w1
      = (Returns s2, w2) /\
    _ddspan s2 <> _ddspan s1 /\
    native_parent w2 s2 = native_parent w2 s1.
Proof.
  intros a w s1 w1.
  assert (Hlive : forall a', resolved_active None w = BridgeSpan a' ->
                             is_Some (w_spans w !! _ddspan a')).
  { intros a' [= <-]. by eexists. }
  split; [reflexivity|]. split; [exact Hlive|].
  destruct (start_span_twice_gives_siblings
              (Tracer_init 0%nat) "b" INTERNAL None None None true true None
              "c" CLIENT None None None false false w s1 w1 eq_refl Hlive)
    as (s2 & w2 & Hrun & Hne & _ & Hsame & _).
  exists s2, w2. split; [exact Hrun|]. split; [exact Hne | exact Hsame].
Defined.

(** ** From the provider to the native span *)

(** X8: a provider built by [TracerProvider.__init__] hands out tracers
    that start their native spans on the process-wide [ddtrace.tracer],
    under the name given to [start_span], whatever [get_tracer] was
    called with. *)
Theorem provider_spans_are_started_on_the_global_tracer
    w provider w0 module_name version schema_url
    name context kind attributes links start_time
    record_exception set_status_on_exception span w' :
  TracerProvider_init w = (Returns provider, w0) ->
  start_span (get_tracer provider module_name version schema_url) name context
    kind attributes links start_time record_exception set_status_on_exception w0
    = (Returns span, w') ->
  w0 = w /\
  exists d,
    w_spans w' !! _ddspan span = Some d /\
    dd_tracer d = w_global_tracer w /\
    dd_name d = name.
Proof.
  rewrite TracerProvider_init_run. intros [= <- <-] Hrun.
  split; [reflexivity|].
  destruct (start_span_cases
              (get_tracer {| _ddtracer := w_global_tracer w |}
                 module_name version schema_url)
              name context kind attributes links start_time
              record_exception set_status_on_exception w)
    as (parent & _ & _ & Heq).
  rewrite Heq in Hrun. injection Hrun as <- <-.
  eexists. unfold started, new_wrapper, Span_init; simpl.
  rewrite list_lookup_middle by reflexivity. repeat split.
Qed.

Lemma provider_spans_are_started_on_the_global_tracer_witness :
  let w := {| w_context := {| ctx_span := INVALID_SPAN |}; w_spans := [];
              w_dd_active := None; w_global_tracer := 5%nat; w_log := [];
              w_observed := [] |} in
  let provider := {| _ddtracer := 5%nat |} in
  let span := Span_init 0%nat INTERNAL None None true true in
  let w' := started (Tracer_init 5%nat) "request" child_None w in
  TracerProvider_init w = (Returns provider, w) /\
  start_span (get_tracer provider "my.module" (Some "1.0") None) "request" None
    INTERNAL None None None true true w = (Returns span, w') /\
  exists d,
    w_spans w' !! 0%nat = Some d /\ dd_tracer d = 5%nat /\ dd_name d = "request".
Proof.
  intros w provider span w'. split; [reflexivity|]. split; [reflexivity|].
  destruct (provider_spans_are_started_on_the_global_tracer
              w provider w "my.module" (Some "1.0") None
              "request" None INTERNAL None None None true true span w'
              eq_refl eq_refl) as (_ & d & Hd & Htracer & Hname).
  exists d. split; [exact Hd|]. split; [exact Htracer | exact Hname].
Defined.

(** ** Leaving a scope *)

Lemma booked_exact span eoe rec sts exc d :
  dd_exception (booked span eoe rec sts exc d) =
    match exc with
    | Some e => if rec && _record_exception span then Some e else dd_exception d
    | None => dd_exception d
    end /\
  dd_error (booked span eoe rec sts exc d) =
    match exc with
    | Some _ => (sts && _set_status_on_exception span) || dd_error d
    | None => dd_error d
    end /\
  dd_finished (booked span eoe rec sts exc d) = eoe || dd_finished d /\
  dd_parent (booked span eoe rec sts exc d) = dd_parent d /\
  dd_name (booked span eoe rec sts exc d) = dd_name d /\
  dd_tracer (booked span eoe rec sts exc d) = dd_tracer d.
Proof.
  unfold booked, finish.
  destruct exc as [e|], eoe, (rec && _record_exception span),
    (sts && _set_status_on_exception span), d as [t n p x [] []];
    simpl; repeat split.
Qed.

Section ScopeExit.

Context {A : Type}.

Variables (self : Tracer) (name : string) (context : option OtelContext)
          (kind : OtelSpanKind) (attributes : option Attributes)
          (links : option (list OtelLink)) (start_time : option Z)
          (record_exception set_status_on_exception end_on_exit : bool)
          (body : Span -> M A).

(** X9: when the body of a [start_as_current_span] scope returns [x], the
    scope returns [x]; the current context is the one of before the call,
    whichever context was passed; nothing is recorded on the span and its
    status is not touched; the native span is finished exactly when
    [end_on_exit] or the body had finished it. *)
Theorem scope_normal_exit w span w1 x w2 :
  start_span self name context kind attributes links start_time
    record_exception set_status_on_exception w = (Returns span, w1) ->
  body span (entered span w1) = (Returns x, w2) ->
  exists w',
    start_as_current_span self name context kind attributes links start_time
      record_exception set_status_on_exception end_on_exit body w
      = (Returns x, w') /\
    w_context w' = w_context w /\
    forall d, w_spans w2 !! _ddspan span = Some d ->
      exists d',
        w_spans w' !! _ddspan span = Some d' /\
        dd_exception d' = dd_exception d /\
        dd_error d' = dd_error d /\
        dd_finished d' = end_on_exit || dd_finished d /\
        dd_parent d' = dd_parent d.
Proof.
  intros Hstart Hbody.
  rewrite (start_as_current_span_run self name context kind attributes links
             start_time record_exception set_status_on_exception end_on_exit
             body w span w1 Hstart), Hbody. simpl.
  eexists. split; [reflexivity|].
  destruct (start_span_inv self name context kind attributes links start_time
              record_exception set_status_on_exception w span w1 Hstart)
    as (parent & _ & _ & ->).
  split; [reflexivity|].
  intros d Hd. simpl.
  exists (booked span end_on_exit record_exception set_status_on_exception None d).
  split.
  { rewrite bookkeeping_spans, list_lookup_alter_eq.
    unfold DDSpanRef in *. by rewrite Hd. }
  destruct (booked_exact span end_on_exit record_exception
              set_status_on_exception None d) as (Hexc & Herr & Hfin & Hpar & _).
  repeat split; assumption.
Qed.

(** X10: when the body raises [e], what the scope leaves on the span's
    native span is decided by the three flags alone: the recorded exception
    is [e] under [record_exception] and otherwise what the body left, the
    status is error under [set_status_on_exception] and otherwise what the
    body left, and the span is finished under [end_on_exit] and otherwise as
    the body left it. *)
Theorem scope_exception_exit_by_flags w span w1 e w2 :
  start_span self name context kind attributes links start_time
    record_exception set_status_on_exception w = (Returns span, w1) ->
  body span (entered span w1) = (Raises e, w2) ->
  forall d, w_spans w2 !! _ddspan span = Some d ->
    exists d',
      w_spans (snd (start_as_current_span self name context kind attributes links
                      start_time record_exception set_status_on_exception
                      end_on_exit body w)) !! _ddspan span = Some d' /\
      dd_exception d' = (if record_exception then Some e else dd_exception d) /\
      dd_error d' = set_status_on_exception || dd_error d /\
      dd_finished d' = end_on_exit || dd_finished d.
Proof.
  intros Hstart Hbody d Hd.
  rewrite (start_as_current_span_run self name context kind attributes links
             start_time record_exception set_status_on_exception end_on_exit
             body w span w1 Hstart), Hbody. simpl.
  destruct (start_span_inv self name context kind attributes links start_time
              record_exception set_status_on_exception w span w1 Hstart)
    as (parent & _ & Hspan & ->).
  exists (booked span end_on_exit record_exception set_status_on_exception (Some e) d).
  split.
  { rewrite bookkeeping_spans, list_lookup_alter_eq.
    unfold DDSpanRef in *. by rewrite Hd. }
  destruct (booked_exact span end_on_exit record_exception
              set_status_on_exception (Some e) d) as (Hexc & Herr & Hfin & _).
  rewrite Hexc, Herr, Hfin. subst span. simpl.
  rewrite !andb_diag. repeat split.
Qed.

(** X11: leaving a scope touches no native span but the scope's own: every
    other span of the store, the log and the native tracer's active span
    are as the body left them, however the body ended. *)
Theorem scope_exit_touches_only_its_span w span w1 :
  start_span self name context kind attributes links start_time
    record_exception set_status_on_exception w = (Returns span, w1) ->
  (forall ref : DDSpanRef, ref <> _ddspan span ->
     w_spans (snd (start_as_current_span self name context kind attributes links
                     start_time record_exception set_status_on_exception
                     end_on_exit body w)) !! ref =
     w_spans (snd (body span (entered span w1))) !! ref) /\
  length (w_spans (snd (start_as_current_span self name context kind attributes
                          links start_time record_exception
                          set_status_on_exception end_on_exit body w))) =
  length (w_spans (snd (body span (entered span w1)))) /\
  w_log (snd (start_as_current_span self name context kind attributes links
                start_time record_exception set_status_on_exception
                end_on_exit body w)) =
  w_log (snd (body span (entered span w1))) /\
  w_dd_active (snd (start_as_current_span self name context kind attributes links
                      start_time record_exception set_status_on_exception
                      end_on_exit body w)) =
  w_dd_active (snd (body span (entered span w1))).
Proof.
  intros Hstart.
  rewrite (start_as_current_span_run self name context kind attributes links
             start_time record_exception set_status_on_exception end_on_exit
             body w span w1 Hstart). simpl.
  destruct (bookkeeping_frame span end_on_exit record_exception
              set_status_on_exception
              (raised (fst (body span (entered span w1))))
              (snd (body span (entered span w1))))
    as (_ & _ & Hlog & Hact & Hlen).
  split; [|split; [exact Hlen | split; [exact Hlog | exact Hact]]].
  intros ref Hne. rewrite bookkeeping_spans.
  apply list_lookup_alter_ne. congruence.
Qed.

End ScopeExit.

Lemma scope_normal_exit_witness :
  let span := Span_init 0%nat INTERNAL None None true true in
  let w1 := started (Tracer_init 0%nat) "work" child_None empty_world in
  start_span (Tracer_init 0%nat) "work" None INTERNAL None None None true true
    empty_world = (Returns span, w1) /\
  (fun _ : Span => ret 42) span (entered span w1) = (Returns 42, entered span w1) /\
  exists w' d',
    start_as_current_span (Tracer_init 0%nat) "work" None INTERNAL None None None
      true true false (fun _ => ret 42) empty_world = (Returns 42, w') /\
    w_context w' = w_context empty_world /\
    w_spans w' !! 0%nat = Some d' /\
    dd_exception d' = None /\ dd_error d' = false /\ dd_finished d' = false.
Proof.
  intros span w1. split; [reflexivity|]. split; [reflexivity|].
  destruct (scope_normal_exit
              (Tracer_init 0%nat) "work" None INTERNAL None None None true true false
              (fun _ => ret 42) empty_world span w1 42 (entered span w1)
              eq_refl eq_refl) as (w' & Hrun & Hctx & Hspan).
  destruct (Hspan (fresh_ddspan 0%nat "work" child_None) eq_refl)
    as (d' & Hd' & Hexc & Herr & Hfin & _).
  exists w', d'. repeat split; assumption.
Defined.

Lemma scope_exception_exit_by_flags_witness :
  let e := UserError "ValueError" "boom" in
  let span := Span_init 0%nat INTERNAL None None false false in
  let w1 := started (Tracer_init 0%nat) "work" child_None empty_world in
  start_span (Tracer_init 0%nat) "work" None INTERNAL None None None false false
    empty_world = (Returns span, w1) /\
  (fun _ : Span => @raise unit e) span (entered span w1) = (Raises e, entered span w1) /\
  exists d',
    w_spans (snd (start_as_current_span (Tracer_init 0%nat) "work" None INTERNAL
                    None None None false false false
                    (fun _ => @raise unit e) empty_world)) !! 0%nat = Some d' /\
    dd_exception d' = None /\ dd_error d' = false /\ dd_finished d' = false.
Proof.
  intros e span w1. split; [reflexivity|]. split; [reflexivity|].
  destruct (scope_exception_exit_by_flags
              (Tracer_init 0%nat) "work" None INTERNAL None None None
              false false false (fun _ => @raise unit e) empty_world span w1 e
              (entered span w1) eq_refl eq_refl
              (fresh_ddspan 0%nat "work" child_None) eq_refl)
    as (d' & Hd' & Hexc & Herr & Hfin).
  exists d'. repeat split; assumption.
Defined.

Lemma scope_exit_touches_only_its_span_witness :
  let a := Span_init 0%nat SERVER None None true true in
  let w := with_active (BridgeSpan a)
             (set_spans [fresh_ddspan 0%nat "a" child_None] empty_world) in
  let span := Span_init 1%nat INTERNAL None None true true in
  let w1 := started (Tracer_init 0%nat) "b" (child_Span 0%nat) w in
  let body := fun _ : Span => @raise unit (UserError "ValueError" "boom") in
  start_span (Tracer_init 0%nat) "b" None INTERNAL None None None true true w
    = (Returns span, w1) /\
  w_spans (snd (start_as_current_span (Tracer_init 0%nat) "b" None INTERNAL None
                  None None true true true body w)) !! 0%nat =
  Some (fresh_ddspan 0%nat "a" child_None).
Proof.
  intros a w span w1 body. split; [reflexivity|].
  destruct (scope_exit_touches_only_its_span
              (Tracer_init 0%nat) "b" None INTERNAL None None None true true true
              body w span w1 eq_refl) as (Hother & _).
  transitivity (w_spans (snd (body span (entered span w1))) !! 0%nat);
    [apply (Hother 0%nat); discriminate | reflexivity].
Defined.

(** ** Inside a scope *)

Lemma resolve_dd_active_any_world o w parent w' :
  resolve_dd_active o w = (Returns (Bound parent), w) ->
  resolve_dd_active (span_or_invalid o) w' = (Returns (Bound parent), w').
Proof.
  destruct o; simpl; unfold bind, log_error, ret; simpl; intros; by simplify_eq.
Qed.

(** X12: when the current context holds an object that is no span under
    the span key, [start_as_current_span] still enters the scope: a root
    span is started and made the active span, the body is run with it,
    nothing is logged, and on exit the context of before the call, still
    holding the object, is current again. *)
Theorem scope_is_entered_over_a_non_span_object
    {A} self name kind attributes links start_time
    record_exception set_status_on_exception end_on_exit
    (body : Span -> M A) repr w :
  let w0 := with_active (OtherObject repr) w in
  let span := new_wrapper w kind attributes start_time
                record_exception set_status_on_exception in
  let w1 := entered span (started self name child_None w0) in
  start_as_current_span self name None kind attributes links start_time
    record_exception set_status_on_exception end_on_exit body w0 =
  (fst (body span w1),
   set_context (w_context w0)
     (bookkeeping span end_on_exit record_exception set_status_on_exception
        (raised (fst (body span w1))) (snd (body span w1)))) /\
  native_parent w1 span = Some child_None /\
  ctx_span (w_context w1) = BridgeSpan span /\
  w_log w1 = w_log w.
Proof.
  intros w0 span w1. split.
  - apply (start_as_current_span_run self name None kind attributes links
             start_time record_exception set_status_on_exception end_on_exit
             body w0 span (started self name child_None w0)).
    apply (start_span_run self name None kind attributes links start_time
             record_exception set_status_on_exception w0).
  - split; [|split; reflexivity].
    apply (native_parent_started self name kind attributes start_time
             record_exception set_status_on_exception w0 child_None).
Qed.

(** X13: the body of a scope runs with the yielded span as the active span
    of the current context, and the yielded span is the wrapper
    [start_span] returned, holding the [kind], [attributes], [start_time]
    and flags of the call. *)
Theorem scope_body_runs_with_its_span_active
    self name context kind attributes links start_time
    record_exception set_status_on_exception end_on_exit w span w1 :
  start_span self name context kind attributes links start_time
    record_exception set_status_on_exception w = (Returns span, w1) ->
  fst (start_as_current_span self name context kind attributes links start_time
         record_exception set_status_on_exception end_on_exit
         (fun s => let* active := get_current_span None in ret (s, active)) w)
    = Returns (span, BridgeSpan span) /\
  span_kind span = kind /\
  span_attributes span = attributes /\
  span_start_time span = start_time /\
  _record_exception span = record_exception /\
  _set_status_on_exception span = set_status_on_exception.
Proof.
  intros Hstart.
  rewrite (start_as_current_span_run self name context kind attributes links
             start_time record_exception set_status_on_exception end_on_exit
             _ w span w1 Hstart).
  split; [reflexivity|].
  destruct (start_span_inv self name context kind attributes links start_time
              record_exception set_status_on_exception w span w1 Hstart)
    as (parent & _ & -> & _).
  repeat split.
Qed.

(** X14: a call inside a scope that passes a context of its own is
    parented by the span of that context, not by the span of the enclosing
    scope: the parent is resolved in the context given, activation happens
    in the current one. *)
Theorem explicit_context_bypasses_the_enclosing_scope
    self name kind attributes links start_time
    record_exception set_status_on_exception end_on_exit
    name' c kind' attributes' links' start_time'
    record_exception' set_status_on_exception' w span w1 parent :
  start_span self name None kind attributes links start_time
    record_exception set_status_on_exception w = (Returns span, w1) ->
  resolve_dd_active (ctx_span c) w = (Returns (Bound parent), w) ->
  exists inner w',
    start_as_current_span self name None kind attributes links start_time
      record_exception set_status_on_exception end_on_exit
      (fun _ => start_span self name' (Some c) kind' attributes' links'
                  start_time' record_exception' set_status_on_exception') w
      = (Returns inner, w') /\
    _ddspan inner <> _ddspan span /\
    native_parent w' inner = Some parent.
Proof.
  intros Hstart Hres.
  rewrite (start_as_current_span_run self name None kind attributes links
             start_time record_exception set_status_on_exception end_on_exit
             _ w span w1 Hstart).
  rewrite (start_span_bound self name' (Some c) kind' attributes' links' start_time'
             record_exception' set_status_on_exception' (entered span w1) parent
             (resolve_dd_active_any_world _ _ _ _ Hres)).
  simpl fst. simpl snd.
  destruct (start_span_inv self name None kind attributes links start_time
              record_exception set_status_on_exception w span w1 Hstart)
    as (p0 & _ & -> & ->).
  eexists _, _. split; [reflexivity|].
  assert (Hne : (length (w_spans (entered
                   (new_wrapper w kind attributes start_time record_exception
                      set_status_on_exception) (started self name p0 w))))
                <> length (w_spans w)).
  { simpl. rewrite length_app. simpl. lia. }
  split; [exact Hne|].
  unfold native_parent. simpl w_spans at 1.
  rewrite bookkeeping_spans.
  rewrite list_lookup_alter_ne by (simpl; rewrite length_app; simpl; lia).
  apply (native_parent_started self name' kind' attributes' start_time'
           record_exception' set_status_on_exception' (entered _ _) parent).
Qed.

Lemma scope_body_runs_with_its_span_active_witness :
  let span := Span_init 0%nat PRODUCER (Some [("queue", AttrStr "jobs")]) (Some 99)
                false true in
  let w1 := started (Tracer_init 0%nat) "send" child_None empty_world in
  start_span (Tracer_init 0%nat) "send" None PRODUCER
    (Some [("queue", AttrStr "jobs")]) None (Some 99) false true empty_world
    = (Returns span, w1) /\
  fst (start_as_current_span (Tracer_init 0%nat) "send" None PRODUCER
         (Some [("queue", AttrStr "jobs")]) None (Some 99) false true true
         (fun s => let* active := get_current_span None in ret (s, active))
         empty_world)
    = Returns (span, BridgeSpan span).
Proof.
  intros span w1. split; [reflexivity|].
  apply (scope_body_runs_with_its_span_active
           (Tracer_init 0%nat) "send" None PRODUCER
           (Some [("queue", AttrStr "jobs")]) None (Some 99) false true true
           empty_world span w1 eq_refl).
Defined.

Lemma explicit_context_bypasses_the_enclosing_scope_witness :
  let span := Span_init 0%nat INTERNAL None None true true in
  let w1 := started (Tracer_init 0%nat) "outer" child_None empty_world in
  let c := {| ctx_span := ForeignSpan (vendor_span SAMPLED) |} in
  let parent := child_Context (foreign_context (vendor_span SAMPLED)) in
  start_span (Tracer_init 0%nat) "outer" None INTERNAL None None None true true
    empty_world = (Returns span, w1) /\
  resolve_dd_active (ctx_span c) empty_world = (Returns (Bound parent), empty_world) /\
  exists inner w',
    start_as_current_span (Tracer_init 0%nat) "outer" None INTERNAL None None None
      true true true
      (fun _ => start_span (Tracer_init 0%nat) "inner" (Some c) INTERNAL None None
                  None true true) empty_world
      = (Returns inner, w') /\
    native_parent w' inner = Some parent.
Proof.
  intros span w1 c parent. split; [reflexivity|]. split; [reflexivity|].
  destruct (explicit_context_bypasses_the_enclosing_scope
              (Tracer_init 0%nat) "outer" INTERNAL None None None true true true
              "inner" c INTERNAL None None None true true
              empty_world span w1 parent eq_refl eq_refl)
    as (inner & w' & Hrun & _ & Hparent).
  exists inner, w'. split; [exact Hrun | exact Hparent].
Defined.
